(** * PC specs requirements checker: a shallow embedding of
    [scripts/pc_specs_checker.py] and the properties of its three pieces,
    the score resolver ([get_cpu_score], [get_gpu_score]), the threshold
    evaluator and the tier classifier ([check_game_compatibility]).

    Conventions of the embedding.
    - Python [int] is [Z] (unbounded on both sides).
    - Python [float] is an exact rational [Q]: the only floats of the module
      are the clock speed, the three gaps and their mean.  Neither the
      rounding of binary64 arithmetic nor its overflow ([OverflowError] on
      quotients and products beyond the float range) is modelled, so the
      properties below are stated where they do not depend on either: on
      integer comparisons, on which branch is taken, and on bounds that any
      monotone rounding keeps.
    - An optional argument or a [dict.get] that may give [None] is an
      [option].
    - The benchmark dictionaries are [gmap string Z].
    - A call that may raise is a [py_result]: either [Ok v] or [Raise e]. *)

From Stdlib Require Import ZArith QArith Qround String Ascii List Lia.
From Stdlib Require Import DecimalString.
From stdpp Require Import base option gmap strings.

Local Open Scope string_scope.
Local Open Scope Z_scope.

(** ** Python values and exceptions *)

Module Py.

Inductive exn : Type :=
| ZeroDivisionError.

Inductive py_result (A : Type) : Type :=
| Ok (a : A)
| Raise (e : exn).

Arguments Ok {A} a.
Arguments Raise {A} e.

Definition bind {A B : Type} (m : py_result A) (k : A -> py_result B)
  : py_result B :=
  match m with
  | Ok a => k a
  | Raise e => Raise e
  end.

(** Truthiness of an optional [int]: [None] and [0] are falsy. *)
Definition truthy_int (x : option Z) : bool :=
  match x with
  | None => false
  | Some n => negb (n =? 0)
  end.

(** Truthiness of an optional [float]: [None] and [0.0] are falsy. *)
Definition truthy_float (x : option Q) : bool :=
  match x with
  | None => false
  | Some q => negb (Qnum q =? 0)
  end.

(** [int(x)] on a float: truncation towards zero. *)
Definition int_of_float (q : Q) : Z :=
  Z.quot (Qnum q) (Z.pos (Qden q)).

(** [a / b] on two ints: true division, raising on a zero divisor. *)
Definition truediv (a b : Z) : py_result Q :=
  if b =? 0 then Raise ZeroDivisionError
  else Ok (Qdiv (inject_Z a) (inject_Z b)).

(** [str(n)] on an int, as an f-string field prints it. *)
Definition str (n : Z) : string :=
  NilZero.string_of_int (Z.to_int n).

(** [sep.join(l)]. *)
Fixpoint join (sep : string) (l : list string) : string :=
  match l with
  | [] => ""
  | [x] => x
  | x :: rest => x +:+ sep +:+ join sep rest
  end.

End Py.

Import Py.

#[global] Instance py_result_ret : MRet py_result := fun A a => Ok a.
#[global] Instance py_result_bind : MBind py_result :=
  fun A B k m => bind m k.
#[global] Instance py_result_fmap : FMap py_result :=
  fun A B f m => bind m (fun a => Ok (f a)).

(** ** The benchmark tables *)

Definition CPU_BENCHMARK_DB : gmap string Z :=
  list_to_map
    [ ("Intel Core i9-13900K", 45000);
      ("Intel Core i7-13700K", 38000);
      ("Intel Core i5-13600K", 32000);
      ("Intel Core i9-12900K", 40000);
      ("Intel Core i7-12700K", 35000);
      ("Intel Core i5-12600K", 28000);
      ("Intel Core i7-11700K", 25000);
      ("Intel Core i5-11600K", 20000);
      ("Intel Core i7-10700K", 22000);
      ("Intel Core i5-10400", 15000);
      ("Intel Core i3-10100", 10000);
      ("AMD Ryzen 9 7950X", 48000);
      ("AMD Ryzen 9 7900X", 42000);
      ("AMD Ryzen 7 7700X", 35000);
      ("AMD Ryzen 5 7600X", 28000);
      ("AMD Ryzen 9 5950X", 38000);
      ("AMD Ryzen 9 5900X", 35000);
      ("AMD Ryzen 7 5800X", 28000);
      ("AMD Ryzen 5 5600X", 22000);
      ("AMD Ryzen 7 3700X", 20000);
      ("AMD Ryzen 5 3600", 16000);
      ("AMD Ryzen 3 3300X", 12000) ].

Definition GPU_BENCHMARK_DB : gmap string Z :=
  list_to_map
    [ ("NVIDIA GeForce RTX 4090", 35000);
      ("NVIDIA GeForce RTX 4080", 28000);
      ("NVIDIA GeForce RTX 4070 Ti", 24000);
      ("NVIDIA GeForce RTX 4070", 20000);
      ("NVIDIA GeForce RTX 4060 Ti", 16000);
      ("NVIDIA GeForce RTX 4060", 14000);
      ("NVIDIA GeForce RTX 3090", 25000);
      ("NVIDIA GeForce RTX 3080", 22000);
      ("NVIDIA GeForce RTX 3070", 18000);
      ("NVIDIA GeForce RTX 3060 Ti", 15000);
      ("NVIDIA GeForce RTX 3060", 13000);
      ("NVIDIA GeForce RTX 3050", 10000);
      ("NVIDIA GeForce GTX 1660 Ti", 9000);
      ("NVIDIA GeForce GTX 1660", 8000);
      ("NVIDIA GeForce GTX 1650", 6000);
      ("AMD Radeon RX 7900 XTX", 30000);
      ("AMD Radeon RX 7900 XT", 26000);
      ("AMD Radeon RX 7800 XT", 22000);
      ("AMD Radeon RX 7700 XT", 18000);
      ("AMD Radeon RX 7600", 14000);
      ("AMD Radeon RX 6900 XT", 23000);
      ("AMD Radeon RX 6800 XT", 20000);
      ("AMD Radeon RX 6700 XT", 16000);
      ("AMD Radeon RX 6600 XT", 12000);
      ("AMD Radeon RX 6600", 10000);
      ("AMD Radeon RX 6500 XT", 7000) ].

(** ** Score resolver *)

(** [get_cpu_score(cpu_name, cores=None, clock_speed=None)]. *)
Definition get_cpu_score (cpu_name : string) (cores : option Z)
    (clock_speed : option Q) : Z :=
  match CPU_BENCHMARK_DB !! cpu_name with
  | Some score => score
  | None =>
      match cores, clock_speed with
      | Some c, Some f =>
          if truthy_int cores && truthy_float clock_speed
          then int_of_float (inject_Z c * f * inject_Z 1000)%Q
          else 10000
      | _, _ => 10000
      end
  end.

(** [get_gpu_score(gpu_name, vram_gb=None)]. *)
Definition get_gpu_score (gpu_name : string) (vram_gb : option Z) : Z :=
  match GPU_BENCHMARK_DB !! gpu_name with
  | Some score => score
  | None =>
      match vram_gb with
      | Some v =>
          if truthy_int vram_gb then
            if 16 <=? v then 20000
            else if 12 <=? v then 15000
            else if 8 <=? v then 12000
            else if 6 <=? v then 9000
            else if 4 <=? v then 6000
            else 3000
          else 8000
      | None => 8000
      end
  end.

(** ** Inputs and outputs of [check_game_compatibility]

    Each dictionary of the docstring is a record; the modules keep the keys
    of the source ([user_hardware["cpu"]["score"]] is [Cpu.score], and so
    on). *)

Module Cpu.
Record t : Type := mk
  { name : string;
    cores : option Z;
    clock_speed : option Q;
    score : option Z }.
End Cpu.

Module Gpu.
Record t : Type := mk
  { name : string;
    vram_gb : option Z;
    score : option Z }.
End Gpu.

Module Hardware.
Record t : Type := mk
  { cpu : Cpu.t;
    gpu : Gpu.t;
    ram_gb : Z }.
End Hardware.

Module Tier.
Record t : Type := mk
  { cpu_score : Z;
    gpu_score : Z;
    ram_gb : Z }.
End Tier.

Module Requirements.
Record t : Type := mk
  { minimum : Tier.t;
    recommended : Tier.t }.
End Requirements.

Module UserScores.
Record t : Type := mk
  { cpu : Z;
    gpu : Z;
    ram : Z }.
End UserScores.

Module Details.
Record t : Type := mk
  { cpu_meets_min : bool;
    cpu_meets_rec : bool;
    gpu_meets_min : bool;
    gpu_meets_rec : bool;
    ram_meets_min : bool;
    ram_meets_rec : bool;
    user_scores : UserScores.t }.
End Details.

Module Result.
Record t : Type := mk
  { can_run : bool;
    settings : string;
    notes : string;
    details : Details.t }.
End Result.

(** ** Threshold evaluator and tier classifier *)

(** Step 1 of [check_game_compatibility]: a pre-supplied score is used as it
    is ([is None] test, so a score of 0 counts as supplied). *)
Definition user_cpu_score (user_hardware : Hardware.t) : Z :=
  let cpu := Hardware.cpu user_hardware in
  match Cpu.score cpu with
  | Some s => s
  | None => get_cpu_score (Cpu.name cpu) (Cpu.cores cpu) (Cpu.clock_speed cpu)
  end.

Definition user_gpu_score (user_hardware : Hardware.t) : Z :=
  let gpu := Hardware.gpu user_hardware in
  match Gpu.score gpu with
  | Some s => s
  | None => get_gpu_score (Gpu.name gpu) (Gpu.vram_gb gpu)
  end.

(** The three f-strings appended to [bottlenecks]. *)
Definition cpu_bottleneck (yours need : Z) : string :=
  "CPU (yours: " +:+ str yours +:+ ", need: " +:+ str need +:+ ")".

Definition gpu_bottleneck (yours need : Z) : string :=
  "GPU (yours: " +:+ str yours +:+ ", need: " +:+ str need +:+ ")".

Definition ram_bottleneck (yours need : Z) : string :=
  "RAM (yours: " +:+ str yours +:+ "GB, need: " +:+ str need +:+ "GB)".

(** The three quotients of the low/medium branch, in the order the source
    evaluates them. *)
Definition cpu_gap (user_cpu_score : Z) (min_reqs rec_reqs : Tier.t)
  : py_result Q :=
  truediv (user_cpu_score - Tier.cpu_score min_reqs)
    (Tier.cpu_score rec_reqs - Tier.cpu_score min_reqs).

Definition gpu_gap (user_gpu_score : Z) (min_reqs rec_reqs : Tier.t)
  : py_result Q :=
  truediv (user_gpu_score - Tier.gpu_score min_reqs)
    (Tier.gpu_score rec_reqs - Tier.gpu_score min_reqs).

Definition ram_gap (user_ram_gb : Z) (min_reqs rec_reqs : Tier.t)
  : py_result Q :=
  truediv (user_ram_gb - Tier.ram_gb min_reqs)
    (Tier.ram_gb rec_reqs - Tier.ram_gb min_reqs).

Definition check_game_compatibility (user_hardware : Hardware.t)
    (game_requirements : Requirements.t) : py_result Result.t :=
  (* Step 1: extract user hardware scores *)
  let user_cpu_score := user_cpu_score user_hardware in
  let user_gpu_score := user_gpu_score user_hardware in
  let user_ram_gb := Hardware.ram_gb user_hardware in
  (* Step 2: get game requirements *)
  let min_reqs := Requirements.minimum game_requirements in
  let rec_reqs := Requirements.recommended game_requirements in
  (* Step 3: check minimum requirements *)
  let cpu_meets_min := user_cpu_score >=? Tier.cpu_score min_reqs in
  let gpu_meets_min := user_gpu_score >=? Tier.gpu_score min_reqs in
  let ram_meets_min := user_ram_gb >=? Tier.ram_gb min_reqs in
  (* Step 4: check recommended requirements *)
  let cpu_meets_rec := user_cpu_score >=? Tier.cpu_score rec_reqs in
  let gpu_meets_rec := user_gpu_score >=? Tier.gpu_score rec_reqs in
  let ram_meets_rec := user_ram_gb >=? Tier.ram_gb rec_reqs in
  (* Step 5: determine if game can run *)
  let meets_minimum := cpu_meets_min && gpu_meets_min && ram_meets_min in
  let meets_recommended := cpu_meets_rec && gpu_meets_rec && ram_meets_rec in
  (* Step 6: generate result *)
  if negb meets_minimum then
    (* cannot run at all *)
    let bottlenecks : list string := [] in
    let bottlenecks :=
      if negb cpu_meets_min
      then (bottlenecks ++
              [cpu_bottleneck user_cpu_score (Tier.cpu_score min_reqs)])%list
      else bottlenecks in
    let bottlenecks :=
      if negb gpu_meets_min
      then (bottlenecks ++
              [gpu_bottleneck user_gpu_score (Tier.gpu_score min_reqs)])%list
      else bottlenecks in
    let bottlenecks :=
      if negb ram_meets_min
      then (bottlenecks ++
              [ram_bottleneck user_ram_gb (Tier.ram_gb min_reqs)])%list
      else bottlenecks in
    Ok {| Result.can_run := false;
          Result.settings := "Cannot Run";
          Result.notes :=
            "Hardware below minimum requirements. Bottlenecks: "
              +:+ join ", " bottlenecks;
          Result.details :=
            {| Details.cpu_meets_min := cpu_meets_min;
               Details.cpu_meets_rec := cpu_meets_rec;
               Details.gpu_meets_min := gpu_meets_min;
               Details.gpu_meets_rec := gpu_meets_rec;
               Details.ram_meets_min := ram_meets_min;
               Details.ram_meets_rec := ram_meets_rec;
               Details.user_scores :=
                 {| UserScores.cpu := user_cpu_score;
                    UserScores.gpu := user_gpu_score;
                    UserScores.ram := user_ram_gb |} |} |}
  else if meets_recommended then
    (* can run on high settings *)
    Ok {| Result.can_run := true;
          Result.settings := "High";
          Result.notes :=
            "Your hardware meets or exceeds recommended requirements. Enjoy high settings!";
          Result.details :=
            {| Details.cpu_meets_min := cpu_meets_min;
               Details.cpu_meets_rec := cpu_meets_rec;
               Details.gpu_meets_min := gpu_meets_min;
               Details.gpu_meets_rec := gpu_meets_rec;
               Details.ram_meets_min := ram_meets_min;
               Details.ram_meets_rec := ram_meets_rec;
               Details.user_scores :=
                 {| UserScores.cpu := user_cpu_score;
                    UserScores.gpu := user_gpu_score;
                    UserScores.ram := user_ram_gb |} |} |}
  else
    (* can run, but not at recommended: low or medium, by the mean gap *)
    cpu_gap ← cpu_gap user_cpu_score min_reqs rec_reqs;
    gpu_gap ← gpu_gap user_gpu_score min_reqs rec_reqs;
    ram_gap ← ram_gap user_ram_gb min_reqs rec_reqs;
    let avg_gap := ((cpu_gap + gpu_gap + ram_gap) / inject_Z 3)%Q in
    let '(settings, notes) :=
      if Qle_bool (1 # 2) avg_gap then
        ("Medium",
         "Your hardware is between minimum and recommended. Expect medium settings.")
      else
        ("Low",
         "Your hardware meets minimum requirements. Expect low settings for smooth gameplay.")
    in
    Ok {| Result.can_run := true;
          Result.settings := settings;
          Result.notes := notes;
          Result.details :=
            {| Details.cpu_meets_min := cpu_meets_min;
               Details.cpu_meets_rec := cpu_meets_rec;
               Details.gpu_meets_min := gpu_meets_min;
               Details.gpu_meets_rec := gpu_meets_rec;
               Details.ram_meets_min := ram_meets_min;
               Details.ram_meets_rec := ram_meets_rec;
               Details.user_scores :=
                 {| UserScores.cpu := user_cpu_score;
                    UserScores.gpu := user_gpu_score;
                    UserScores.ram := user_ram_gb |} |} |}.

(** ** Vocabulary of the properties *)

(** The three resource dimensions of a comparison. *)
Inductive dimension : Type := CPU | GPU | RAM.

#[global] Instance dimension_eq_dec : EqDecision dimension.
Proof. solve_decision. Defined.

Definition dimensions : list dimension := [CPU; GPU; RAM].

(** The user's resolved value on a dimension. *)
Definition yours (hw : Hardware.t) (d : dimension) : Z :=
  match d with
  | CPU => user_cpu_score hw
  | GPU => user_gpu_score hw
  | RAM => Hardware.ram_gb hw
  end.

(** A requirement tier's value on a dimension. *)
Definition need (t : Tier.t) (d : dimension) : Z :=
  match d with
  | CPU => Tier.cpu_score t
  | GPU => Tier.gpu_score t
  | RAM => Tier.ram_gb t
  end.

Definition meets (hw : Hardware.t) (t : Tier.t) (d : dimension) : Prop :=
  need t d <= yours hw d.

Definition MeetsMinimum (hw : Hardware.t) (req : Requirements.t) : Prop :=
  forall d, meets hw (Requirements.minimum req) d.

Definition MeetsRecommended (hw : Hardware.t) (req : Requirements.t) : Prop :=
  forall d, meets hw (Requirements.recommended req) d.

(** Some dimension has its recommended value equal to its minimum. *)
Definition zero_gap_divisor (req : Requirements.t) : Prop :=
  exists d, need (Requirements.recommended req) d
            = need (Requirements.minimum req) d.

(** Minimum below recommended on every dimension: the spec's convention
    (not enforced by the code), and its strict form. *)
Definition min_le_rec (req : Requirements.t) : Prop :=
  forall d, need (Requirements.minimum req) d
            <= need (Requirements.recommended req) d.

Definition min_lt_rec (req : Requirements.t) : Prop :=
  forall d, need (Requirements.minimum req) d
            < need (Requirements.recommended req) d.

(** The tiers in their order, Cannot Run < Low < Medium < High. *)
Definition tier_rank (settings : string) : option nat :=
  if String.eqb settings "Cannot Run" then Some 0%nat
  else if String.eqb settings "Low" then Some 1%nat
  else if String.eqb settings "Medium" then Some 2%nat
  else if String.eqb settings "High" then Some 3%nat
  else None.

Definition tier_le (s1 s2 : string) : Prop :=
  match tier_rank s1, tier_rank s2 with
  | Some a, Some b => (a <= b)%nat
  | _, _ => False
  end.

(** [hw'] is [hw] with exactly one of the three resolved scores raised and
    the other two unchanged. *)
Definition raises_one_score (hw hw' : Hardware.t) : Prop :=
  exists d, yours hw d < yours hw' d
            /\ forall d', d' <> d -> yours hw' d' = yours hw d'.

(** The gap of a dimension as the spec writes it, [(user - min) / (rec - min)],
    and the mean of the three. *)
Definition gap (hw : Hardware.t) (req : Requirements.t) (d : dimension) : Q :=
  (inject_Z (yours hw d - need (Requirements.minimum req) d)
   / inject_Z (need (Requirements.recommended req) d
               - need (Requirements.minimum req) d))%Q.

Definition avg_gap (hw : Hardware.t) (req : Requirements.t) : Q :=
  ((gap hw req CPU + gap hw req GPU + gap hw req RAM) / inject_Z 3)%Q.

(** The quotient the source computes for a dimension. *)
Definition source_gap (hw : Hardware.t) (req : Requirements.t)
    (d : dimension) : py_result Q :=
  let min_reqs := Requirements.minimum req in
  let rec_reqs := Requirements.recommended req in
  match d with
  | CPU => cpu_gap (user_cpu_score hw) min_reqs rec_reqs
  | GPU => gpu_gap (user_gpu_score hw) min_reqs rec_reqs
  | RAM => ram_gap (Hardware.ram_gb hw) min_reqs rec_reqs
  end.

(** The entry of the notes for a dimension below its minimum, as the spec
    words it: the label, then the literal values as "yours: X, need: Y"
    (memory carries its unit). *)
Definition label (d : dimension) : string :=
  match d with CPU => "CPU" | GPU => "GPU" | RAM => "RAM" end.

Definition unit_suffix (d : dimension) : string :=
  match d with RAM => "GB" | _ => "" end.

Definition bottleneck_entry (hw : Hardware.t) (req : Requirements.t)
    (d : dimension) : string :=
  label d +:+ " (yours: " +:+ str (yours hw d) +:+ unit_suffix d
    +:+ ", need: " +:+ str (need (Requirements.minimum req) d)
    +:+ unit_suffix d +:+ ")".

(** The estimate of the spec for an unlisted GPU: six bands of VRAM. *)
Definition vram_band (vram_gb : Z) : Z :=
  if decide (16 <= vram_gb) then 20000
  else if decide (12 <= vram_gb) then 15000
  else if decide (8 <= vram_gb) then 12000
  else if decide (6 <= vram_gb) then 9000
  else if decide (4 <= vram_gb) then 6000
  else 3000.

(** The estimate of the spec for an unlisted CPU. *)
Definition cpu_estimate (cores : Z) (clock_speed : Q) : Z :=
  int_of_float (inject_Z cores * clock_speed * inject_Z 1000)%Q.

(** A rounding of the rationals that keeps the order and leaves 0 and 1
    where they are. *)
Definition monotone_rounding (rnd : Q -> Q) : Prop :=
  (forall x y, (x <= y)%Q -> (rnd x <= rnd y)%Q)
  /\ (rnd 0 == 0)%Q
  /\ (rnd 1 == 1)%Q.

(** The low/medium decision without division: [span] is the distance from
    minimum to recommended on a dimension, [lead] the user's distance above
    the minimum, and [weighted_lead] the sum of the three gaps brought to the
    common denominator [span CPU * span GPU * span RAM]. *)
Definition span (req : Requirements.t) (d : dimension) : Z :=
  need (Requirements.recommended req) d - need (Requirements.minimum req) d.

Definition lead (hw : Hardware.t) (req : Requirements.t) (d : dimension) : Z :=
  yours hw d - need (Requirements.minimum req) d.

Definition weighted_lead (hw : Hardware.t) (req : Requirements.t) : Z :=
  lead hw req CPU * span req GPU * span req RAM
  + lead hw req GPU * span req CPU * span req RAM
  + lead hw req RAM * span req CPU * span req GPU.

(** The outcome of an evaluation, by the branch that produces it. *)
Inductive verdict (hw : Hardware.t) (req : Requirements.t)
  : py_result Result.t -> Prop :=
| verdict_cannot_run (r : Result.t) :
    ~ MeetsMinimum hw req ->
    Result.can_run r = false ->
    Result.settings r = "Cannot Run" ->
    verdict hw req (Ok r)
| verdict_high (r : Result.t) :
    MeetsMinimum hw req ->
    MeetsRecommended hw req ->
    Result.can_run r = true ->
    Result.settings r = "High" ->
    verdict hw req (Ok r)
| verdict_medium (r : Result.t) :
    MeetsMinimum hw req ->
    ~ MeetsRecommended hw req ->
    ~ zero_gap_divisor req ->
    (1 # 2 <= avg_gap hw req)%Q ->
    Result.can_run r = true ->
    Result.settings r = "Medium" ->
    verdict hw req (Ok r)
| verdict_low (r : Result.t) :
    MeetsMinimum hw req ->
    ~ MeetsRecommended hw req ->
    ~ zero_gap_divisor req ->
    (avg_gap hw req < 1 # 2)%Q ->
    Result.can_run r = true ->
    Result.settings r = "Low" ->
    verdict hw req (Ok r)
| verdict_zero_division :
    MeetsMinimum hw req ->
    ~ MeetsRecommended hw req ->
    zero_gap_divisor req ->
    verdict hw req (Raise ZeroDivisionError).

(** ** Inputs of the examples *)

(** The example of the module's [__main__] block. *)
Definition user_hw : Hardware.t :=
  Hardware.mk
    (Cpu.mk "AMD Ryzen 5 5600X" (Some 6) (Some (37 # 10)%Q) None)
    (Gpu.mk "NVIDIA GeForce RTX 3060" (Some 12) None)
    16.

Definition game_reqs : Requirements.t :=
  Requirements.mk (Tier.mk 16000 9000 8) (Tier.mk 25000 18000 16).

(** A profile whose three scores are given directly. *)
Definition scored_hw (cpu gpu ram : Z) : Hardware.t :=
  Hardware.mk (Cpu.mk "" None None (Some cpu)) (Gpu.mk "" None (Some gpu)) ram.

(** Requirements whose memory need is the same at both tiers. *)
Definition flat_ram_reqs : Requirements.t :=
  Requirements.mk (Tier.mk 16000 9000 8) (Tier.mk 25000 18000 8).

(** Requirements whose CPU minimum is above the recommended value. *)
Definition inverted_cpu_reqs : Requirements.t :=
  Requirements.mk (Tier.mk 20 0 0) (Tier.mk 10 10 10).

(** * Properties *)

(** ** Python helpers *)

Example str_examples :
  str 12000 = "12000" /\ str 0 = "0" /\ str (-5) = "-5".
Proof. repeat split; vm_compute; reflexivity. Qed.

Example int_of_float_examples :
  int_of_float (7 # 2) = 3 /\ int_of_float (-7 # 2) = -3.
Proof. split; reflexivity. Qed.

Lemma truediv_Ok (a b : Z) :
  b <> 0 -> truediv a b = Ok (inject_Z a / inject_Z b)%Q.
Proof.
  intros Hb. unfold truediv.
  destruct (Z.eqb_spec b 0); [contradiction | reflexivity].
Qed.

Lemma truediv_Raise (a : Z) : truediv a 0 = Raise ZeroDivisionError.
Proof. reflexivity. Qed.

Lemma truediv_inv_Ok (a b : Z) (q : Q) :
  truediv a b = Ok q -> b <> 0 /\ q = (inject_Z a / inject_Z b)%Q.
Proof.
  unfold truediv. destruct (Z.eqb_spec b 0); [discriminate |].
  intros [= <-]. auto.
Qed.

(** ** Score resolver *)

Example get_cpu_score_listed :
  get_cpu_score "AMD Ryzen 5 5600X" (Some 6) (Some (37 # 10)%Q) = 22000.
Proof. vm_compute. reflexivity. Qed.

Example get_cpu_score_estimated :
  get_cpu_score "Some CPU" (Some 8) (Some (7 # 2)%Q) = 28000.
Proof. vm_compute. reflexivity. Qed.

Example get_gpu_score_estimated :
  get_gpu_score "Some GPU" (Some 6) = 9000.
Proof. vm_compute. reflexivity. Qed.

Lemma truthy_int_Some (n : Z) : truthy_int (Some n) = true <-> n <> 0.
Proof.
  unfold truthy_int. destruct (Z.eqb_spec n 0); simpl; split; intros; congruence.
Qed.

Lemma truthy_float_Some (q : Q) : truthy_float (Some q) = true <-> ~ (q == 0)%Q.
Proof.
  unfold truthy_float, Qeq. cbn [Qnum Qden].
  rewrite Z.mul_1_r, Z.mul_0_l.
  destruct (Z.eqb_spec (Qnum q) 0); simpl; split; intros; congruence.
Qed.

(** The six bands of the source are those of the spec. *)
Lemma vram_band_source (v : Z) :
  (if 16 <=? v then 20000
   else if 12 <=? v then 15000
   else if 8 <=? v then 12000
   else if 6 <=? v then 9000
   else if 4 <=? v then 6000
   else 3000) = vram_band v.
Proof.
  unfold vram_band.
  repeat (case_decide; [rewrite (proj2 (Z.leb_le _ _)) by lia; try reflexivity
                       | rewrite (proj2 (Z.leb_gt _ _)) by lia]);
    try reflexivity.
Qed.

(** C4. A component whose name is a key of its benchmark table resolves to
    the table's value for that name, whatever secondary attributes (cores,
    clock speed, VRAM) come with it. *)
Theorem listed_score_is_table_value
    (name : string) (score : Z)
    (cores : option Z) (clock_speed : option Q) (vram_gb : option Z) :
  (CPU_BENCHMARK_DB !! name = Some score ->
   get_cpu_score name cores clock_speed = score)
  /\ (GPU_BENCHMARK_DB !! name = Some score ->
      get_gpu_score name vram_gb = score).
Proof.
  split; intros Hin.
  - unfold get_cpu_score. rewrite Hin. reflexivity.
  - unfold get_gpu_score. rewrite Hin. reflexivity.
Qed.

Lemma listed_score_is_table_value_witness :
  get_cpu_score "AMD Ryzen 5 5600X" (Some 6) (Some (37 # 10)%Q) = 22000
  /\ get_gpu_score "AMD Radeon RX 7600" (Some 0) = 14000.
Proof.
  split.
  - apply (proj1 (listed_score_is_table_value "AMD Ryzen 5 5600X" 22000
                    (Some 6) (Some (37 # 10)%Q) None)).
    vm_compute. reflexivity.
  - apply (proj2 (listed_score_is_table_value "AMD Radeon RX 7600" 14000
                    None None (Some 0))).
    vm_compute. reflexivity.
Defined.

(** C3: what the code does where the claim promises the estimate.  The
    guards test truthiness, not presence: an unlisted CPU supplied with
    [cores = 0] resolves to the default 10000 and not to the estimate
    [int(0 * 3.5 * 1000) = 0]; an unlisted GPU supplied with [vram_gb = 0]
    resolves to the default 8000 and not to the lowest band 3000. *)
Lemma supplied_zero_attribute_not_estimated :
  (CPU_BENCHMARK_DB !! "Unlisted CPU" = None
   /\ get_cpu_score "Unlisted CPU" (Some 0) (Some (7 # 2)%Q) = 10000
   /\ cpu_estimate 0 (7 # 2) = 0)
  /\ (GPU_BENCHMARK_DB !! "Unlisted GPU" = None
      /\ get_gpu_score "Unlisted GPU" (Some 0) = 8000
      /\ vram_band 0 = 3000).
Proof. repeat split; vm_compute; reflexivity. Qed.

(** C9. An unlisted CPU supplied with [cores = 0] or [clock_speed = 0]
    resolves to the default 10000, and an unlisted GPU supplied with
    [vram_gb = 0] to the default 8000: the guards test truthiness. *)
Theorem zero_attribute_gives_default
    (name : string) (cores : option Z) (clock_speed : option Q) :
  (CPU_BENCHMARK_DB !! name = None ->
   cores = Some 0 \/ (exists f, clock_speed = Some f /\ (f == 0)%Q) ->
   get_cpu_score name cores clock_speed = 10000)
  /\ (GPU_BENCHMARK_DB !! name = None ->
      get_gpu_score name (Some 0) = 8000).
Proof.
  split.
  - intros Hout Hzero. unfold get_cpu_score. rewrite Hout.
    destruct Hzero as [-> | (f & -> & Hf)].
    + destruct clock_speed; reflexivity.
    + destruct cores as [c |]; [| reflexivity].
      destruct (truthy_float (Some f)) eqn:Ht.
      * apply truthy_float_Some in Ht. contradiction.
      * rewrite andb_false_r. reflexivity.
  - intros Hout. unfold get_gpu_score. rewrite Hout. reflexivity.
Qed.

Lemma zero_attribute_gives_default_witness :
  get_cpu_score "Unlisted CPU" (Some 0) (Some (7 # 2)%Q) = 10000
  /\ get_cpu_score "Unlisted CPU" (Some 8) (Some (0 # 1)%Q) = 10000
  /\ get_gpu_score "Unlisted GPU" (Some 0) = 8000.
Proof.
  split; [| split].
  - apply (proj1 (zero_attribute_gives_default "Unlisted CPU"
                    (Some 0) (Some (7 # 2)%Q))).
    + vm_compute. reflexivity.
    + left. reflexivity.
  - apply (proj1 (zero_attribute_gives_default "Unlisted CPU"
                    (Some 8) (Some (0 # 1)%Q))).
    + vm_compute. reflexivity.
    + right. exists (0 # 1)%Q. split; reflexivity.
  - apply (proj2 (zero_attribute_gives_default "Unlisted GPU" None None)).
    vm_compute. reflexivity.
Defined.

(** ** Threshold evaluator *)

Lemma geb_meets (hw : Hardware.t) (t : Tier.t) (d : dimension) :
  (yours hw d >=? need t d) = true <-> meets hw t d.
Proof. unfold meets. rewrite Z.geb_leb. apply Z.leb_le. Qed.

Lemma meets_all_geb (hw : Hardware.t) (t : Tier.t) :
  (user_cpu_score hw >=? Tier.cpu_score t)
  && (user_gpu_score hw >=? Tier.gpu_score t)
  && (Hardware.ram_gb hw >=? Tier.ram_gb t) = true
  <-> forall d, meets hw t d.
Proof.
  rewrite !andb_true_iff.
  rewrite (geb_meets hw t CPU), (geb_meets hw t GPU), (geb_meets hw t RAM).
  split.
  - intros [[Hc Hg] Hr] []; assumption.
  - intros H. repeat split; apply H.
Qed.

Lemma not_meets_all_geb (hw : Hardware.t) (t : Tier.t) :
  (user_cpu_score hw >=? Tier.cpu_score t)
  && (user_gpu_score hw >=? Tier.gpu_score t)
  && (Hardware.ram_gb hw >=? Tier.ram_gb t) = false
  <-> ~ forall d, meets hw t d.
Proof.
  rewrite <- meets_all_geb. symmetry. apply not_true_iff_false.
Qed.

Lemma zero_gap_divisor_cases (req : Requirements.t) :
  zero_gap_divisor req <->
  Tier.cpu_score (Requirements.recommended req)
  - Tier.cpu_score (Requirements.minimum req) = 0
  \/ Tier.gpu_score (Requirements.recommended req)
     - Tier.gpu_score (Requirements.minimum req) = 0
  \/ Tier.ram_gb (Requirements.recommended req)
     - Tier.ram_gb (Requirements.minimum req) = 0.
Proof.
  unfold zero_gap_divisor. split.
  - intros [[] H]; simpl in H; lia.
  - intros [H | [H | H]]; [exists CPU | exists GPU | exists RAM]; simpl; lia.
Qed.

(** ** Tier classifier *)

(** Every evaluation ends in one of the five outcomes of [verdict]. *)
Lemma check_verdict (hw : Hardware.t) (req : Requirements.t) :
  verdict hw req (check_game_compatibility hw req).
Proof.
  unfold check_game_compatibility. cbv zeta.
  destruct (_ && _ && _) eqn:Emin; cbn [negb].
  2:{ pose proof (proj1 (not_meets_all_geb _ _) Emin) as Hmin. apply verdict_cannot_run; auto. }
  pose proof (proj1 (meets_all_geb _ _) Emin) as Hmin.
  destruct ((_ >=? Tier.cpu_score (Requirements.recommended req)) && _ && _)
    eqn:Erec.
  { pose proof (proj1 (meets_all_geb _ _) Erec) as Hrec. apply verdict_high; auto. }
  pose proof (proj1 (not_meets_all_geb _ _) Erec) as Hrec.
  unfold cpu_gap, gpu_gap, ram_gap, truediv.
  destruct (Z.eqb_spec (Tier.cpu_score (Requirements.recommended req)
                        - Tier.cpu_score (Requirements.minimum req)) 0) as [Hc | Hc].
  { apply verdict_zero_division; auto.
    apply zero_gap_divisor_cases; auto. }
  destruct (Z.eqb_spec (Tier.gpu_score (Requirements.recommended req)
                        - Tier.gpu_score (Requirements.minimum req)) 0) as [Hg | Hg].
  { apply verdict_zero_division; auto.
    apply zero_gap_divisor_cases; auto. }
  destruct (Z.eqb_spec (Tier.ram_gb (Requirements.recommended req)
                        - Tier.ram_gb (Requirements.minimum req)) 0) as [Hr | Hr].
  { apply verdict_zero_division; auto.
    apply zero_gap_divisor_cases; auto. }
  assert (Hnz : ~ zero_gap_divisor req).
  { rewrite zero_gap_divisor_cases. tauto. }
  cbn [mbind py_result_bind bind].
  change (((inject_Z (user_cpu_score hw - Tier.cpu_score (Requirements.minimum req))
            / inject_Z (Tier.cpu_score (Requirements.recommended req)
                        - Tier.cpu_score (Requirements.minimum req))
            + inject_Z (user_gpu_score hw - Tier.gpu_score (Requirements.minimum req))
              / inject_Z (Tier.gpu_score (Requirements.recommended req)
                          - Tier.gpu_score (Requirements.minimum req))
            + inject_Z (Hardware.ram_gb hw - Tier.ram_gb (Requirements.minimum req))
              / inject_Z (Tier.ram_gb (Requirements.recommended req)
                          - Tier.ram_gb (Requirements.minimum req)))
           / inject_Z 3)%Q) with (avg_gap hw req).
  destruct (Qle_bool (1 # 2) (avg_gap hw req)) eqn:Eavg.
  - apply Qle_bool_iff in Eavg. apply verdict_medium; auto.
  - apply verdict_low; auto.
    apply Qnot_le_lt. intros Hle. apply Qle_bool_iff in Hle. congruence.
Qed.

Lemma geb_bool_decide (x y : Z) : (x >=? y) = bool_decide (x >= y).
Proof.
  rewrite Z.geb_leb. symmetry.
  destruct (Z.leb_spec y x);
    [apply bool_decide_eq_true_2 | apply bool_decide_eq_false_2]; lia.
Qed.

(** The three branches write the same [details]. *)
Lemma check_details (hw : Hardware.t) (req : Requirements.t) (r : Result.t) :
  check_game_compatibility hw req = Ok r ->
  Result.details r =
  {| Details.cpu_meets_min :=
       user_cpu_score hw >=? Tier.cpu_score (Requirements.minimum req);
     Details.cpu_meets_rec :=
       user_cpu_score hw >=? Tier.cpu_score (Requirements.recommended req);
     Details.gpu_meets_min :=
       user_gpu_score hw >=? Tier.gpu_score (Requirements.minimum req);
     Details.gpu_meets_rec :=
       user_gpu_score hw >=? Tier.gpu_score (Requirements.recommended req);
     Details.ram_meets_min :=
       Hardware.ram_gb hw >=? Tier.ram_gb (Requirements.minimum req);
     Details.ram_meets_rec :=
       Hardware.ram_gb hw >=? Tier.ram_gb (Requirements.recommended req);
     Details.user_scores :=
       {| UserScores.cpu := user_cpu_score hw;
          UserScores.gpu := user_gpu_score hw;
          UserScores.ram := Hardware.ram_gb hw |} |}.
Proof.
  unfold check_game_compatibility. cbv zeta.
  destruct (negb _).
  { intros [= <-]. reflexivity. }
  destruct (_ && _ && _).
  { intros [= <-]. reflexivity. }
  destruct (cpu_gap _ _ _) as [gc |]; [| discriminate].
  destruct (gpu_gap _ _ _) as [gg |]; [| discriminate].
  destruct (ram_gap _ _ _) as [gr |]; [| discriminate].
  cbn [mbind py_result_bind bind].
  destruct (Qle_bool _ _); intros [= <-]; reflexivity.
Qed.

(** An evaluation raises exactly in the low/medium branch, on a dimension
    whose recommended value equals its minimum. *)
Lemma check_raises_iff (hw : Hardware.t) (req : Requirements.t) (e : exn) :
  check_game_compatibility hw req = Raise e <->
  MeetsMinimum hw req /\ ~ MeetsRecommended hw req /\ zero_gap_divisor req.
Proof.
  pose proof (check_verdict hw req) as V. split.
  - intros E. rewrite E in V. inversion V; auto.
  - intros (Hmin & Hrec & Hz). destruct e.
    inversion V; try contradiction; reflexivity.
Qed.

(** C8. Whichever branch produces the result, its [details] carry the six
    flags, each equal to its [>=] comparison, and the three resolved user
    scores.  No result is produced only when the low/medium branch divides
    by a zero difference. *)
Theorem details_carry_flags_and_scores
    (hw : Hardware.t) (req : Requirements.t) :
  match check_game_compatibility hw req with
  | Ok r =>
      Details.cpu_meets_min (Result.details r)
      = bool_decide (user_cpu_score hw
                     >= Tier.cpu_score (Requirements.minimum req))
      /\ Details.cpu_meets_rec (Result.details r)
         = bool_decide (user_cpu_score hw
                        >= Tier.cpu_score (Requirements.recommended req))
      /\ Details.gpu_meets_min (Result.details r)
         = bool_decide (user_gpu_score hw
                        >= Tier.gpu_score (Requirements.minimum req))
      /\ Details.gpu_meets_rec (Result.details r)
         = bool_decide (user_gpu_score hw
                        >= Tier.gpu_score (Requirements.recommended req))
      /\ Details.ram_meets_min (Result.details r)
         = bool_decide (Hardware.ram_gb hw
                        >= Tier.ram_gb (Requirements.minimum req))
      /\ Details.ram_meets_rec (Result.details r)
         = bool_decide (Hardware.ram_gb hw
                        >= Tier.ram_gb (Requirements.recommended req))
      /\ Details.user_scores (Result.details r)
         = {| UserScores.cpu := user_cpu_score hw;
              UserScores.gpu := user_gpu_score hw;
              UserScores.ram := Hardware.ram_gb hw |}
  | Raise e =>
      MeetsMinimum hw req /\ ~ MeetsRecommended hw req /\ zero_gap_divisor req
  end.
Proof.
  destruct (check_game_compatibility hw req) as [r | e] eqn:E.
  - apply check_details in E. rewrite E. cbn.
    rewrite !geb_bool_decide. repeat split.
  - apply check_raises_iff in E. exact E.
Qed.

(** C10. In every returned result [can_run] is false exactly when the
    settings are "Cannot Run", and true exactly when they are one of "Low",
    "Medium", "High". *)
Theorem can_run_iff_settings (hw : Hardware.t) (req : Requirements.t) :
  match check_game_compatibility hw req with
  | Ok r =>
      (Result.can_run r = false <-> Result.settings r = "Cannot Run")
      /\ (Result.can_run r = true <->
          Result.settings r = "Low" \/ Result.settings r = "Medium"
          \/ Result.settings r = "High")
  | Raise e =>
      MeetsMinimum hw req /\ ~ MeetsRecommended hw req /\ zero_gap_divisor req
  end.
Proof.
  destruct (check_verdict hw req)
    as [r _ Hc Hs | r _ _ Hc Hs | r _ _ _ _ Hc Hs | r _ _ _ _ Hc Hs | ];
    [rewrite Hc, Hs .. | auto];
    (split; split; intros H; try discriminate; auto;
     destruct H as [H | [H | H]]; discriminate).
Qed.

(** The f-strings of the source are the entries of the spec. *)
Lemma bottleneck_entry_source (hw : Hardware.t) (req : Requirements.t) :
  cpu_bottleneck (user_cpu_score hw)
    (Tier.cpu_score (Requirements.minimum req)) = bottleneck_entry hw req CPU
  /\ gpu_bottleneck (user_gpu_score hw)
       (Tier.gpu_score (Requirements.minimum req)) = bottleneck_entry hw req GPU
  /\ ram_bottleneck (Hardware.ram_gb hw)
       (Tier.ram_gb (Requirements.minimum req)) = bottleneck_entry hw req RAM.
Proof. repeat split. Qed.

(** C5. When at least one minimum is not met, the evaluation returns
    [can_run = false] and settings "Cannot Run", and its notes list, after the
    fixed heading, exactly the failing dimensions in the order CPU, GPU, RAM,
    each as "LABEL (yours: X, need: Y)" with the literal values (memory with
    its GB unit), joined by ", ". *)
Theorem below_minimum_cannot_run
    (hw : Hardware.t) (req : Requirements.t) :
  (exists d, yours hw d < need (Requirements.minimum req) d) ->
  exists r,
    check_game_compatibility hw req = Ok r
    /\ Result.can_run r = false
    /\ Result.settings r = "Cannot Run"
    /\ Result.notes r =
       "Hardware below minimum requirements. Bottlenecks: "
         +:+ join ", "
               (bottleneck_entry hw req <$>
                  filter (fun d => yours hw d < need (Requirements.minimum req) d)
                    dimensions).
Proof.
  intros Hfail.
  destruct (bottleneck_entry_source hw req) as (Ec & Eg & Er).
  unfold check_game_compatibility. cbv zeta.
  rewrite Ec, Eg, Er. clear Ec Eg Er.
  unfold dimensions. rewrite !filter_cons, filter_nil.
  rewrite !Z.geb_leb. cbn [yours need].
  destruct (Z.leb_spec (Tier.cpu_score (Requirements.minimum req))
              (user_cpu_score hw));
    destruct (Z.leb_spec (Tier.gpu_score (Requirements.minimum req))
                (user_gpu_score hw));
    destruct (Z.leb_spec (Tier.ram_gb (Requirements.minimum req))
                (Hardware.ram_gb hw));
    repeat case_decide; try lia;
    first
      [ exfalso; destruct Hfail as [[] Hd]; cbn [yours need] in Hd; lia
      | cbn [andb negb app fmap list_fmap]; eexists; repeat split ].
Qed.

Lemma below_minimum_cannot_run_witness :
  exists r,
    check_game_compatibility (scored_hw 10000 6000 4) game_reqs = Ok r
    /\ Result.can_run r = false
    /\ Result.settings r = "Cannot Run"
    /\ Result.notes r =
       "Hardware below minimum requirements. Bottlenecks: CPU (yours: 10000, need: 16000), GPU (yours: 6000, need: 9000), RAM (yours: 4GB, need: 8GB)".
Proof.
  apply (below_minimum_cannot_run (scored_hw 10000 6000 4) game_reqs).
  exists CPU. vm_compute. reflexivity.
Defined.

Example only_failing_dimensions_listed :
  Result.notes <$> check_game_compatibility (scored_hw 12000 18000 4) game_reqs
  = Ok "Hardware below minimum requirements. Bottlenecks: CPU (yours: 12000, need: 16000), RAM (yours: 4GB, need: 8GB)".
Proof. vm_compute. reflexivity. Qed.

(** C6, as stated, fails: with a CPU minimum above the recommended value, a
    user exactly at every recommended value is below the minimum and gets
    "Cannot Run". *)
Lemma at_recommended_below_inverted_minimum :
  (yours (scored_hw 10 10 10) CPU
   = need (Requirements.recommended inverted_cpu_reqs) CPU
   /\ yours (scored_hw 10 10 10) GPU
      = need (Requirements.recommended inverted_cpu_reqs) GPU
   /\ yours (scored_hw 10 10 10) RAM
      = need (Requirements.recommended inverted_cpu_reqs) RAM)
  /\ Result.settings <$>
       check_game_compatibility (scored_hw 10 10 10) inverted_cpu_reqs
     = Ok "Cannot Run"
  /\ Result.can_run <$>
       check_game_compatibility (scored_hw 10 10 10) inverted_cpu_reqs
     = Ok false.
Proof. repeat split. Qed.

(** C6, amended. For every requirements profile whose minimum does not
    exceed its recommended value on any dimension, a user whose resolved CPU
    score, GPU score and memory each equal the recommended value gets "High"
    with [can_run = true]. *)
Theorem at_recommended_is_high (hw : Hardware.t) (req : Requirements.t) :
  min_le_rec req ->
  (forall d, yours hw d = need (Requirements.recommended req) d) ->
  exists r,
    check_game_compatibility hw req = Ok r
    /\ Result.settings r = "High"
    /\ Result.can_run r = true.
Proof.
  intros Hle Heq.
  assert (Hrec : MeetsRecommended hw req).
  { intros d. unfold meets. rewrite Heq. lia. }
  assert (Hmin : MeetsMinimum hw req).
  { intros d. unfold meets. rewrite Heq. apply Hle. }
  destruct (check_verdict hw req) as [r Hn | r | r ? Hn | r ? Hn | ? Hn];
    try contradiction.
  exists r. auto.
Qed.

Lemma at_recommended_is_high_witness :
  exists r,
    check_game_compatibility (scored_hw 25000 18000 16) game_reqs = Ok r
    /\ Result.settings r = "High"
    /\ Result.can_run r = true.
Proof.
  apply (at_recommended_is_high (scored_hw 25000 18000 16) game_reqs).
  - intros []; vm_compute; discriminate.
  - intros []; reflexivity.
Defined.

(** C1: what the code does where the claim asks for a safe policy.  When the
    user meets every minimum but not every recommended value and some
    dimension has its recommended value equal to its minimum, the evaluation
    raises [ZeroDivisionError]: no gap of 1.0 is substituted and no
    precondition is reported. *)
Theorem equal_thresholds_raise_zero_division
    (hw : Hardware.t) (req : Requirements.t) :
  MeetsMinimum hw req ->
  ~ MeetsRecommended hw req ->
  zero_gap_divisor req ->
  check_game_compatibility hw req = Raise ZeroDivisionError.
Proof.
  intros Hmin Hrec Hz. apply check_raises_iff. auto.
Qed.

Lemma equal_thresholds_raise_zero_division_witness :
  check_game_compatibility (scored_hw 20000 18000 8) flat_ram_reqs
  = Raise ZeroDivisionError.
Proof.
  apply (equal_thresholds_raise_zero_division
           (scored_hw 20000 18000 8) flat_ram_reqs).
  - intros []; vm_compute; discriminate.
  - intros H. specialize (H CPU). vm_compute in H. apply H. reflexivity.
  - exists RAM. reflexivity.
Defined.

(** ** Gaps *)

Lemma Qdiv_inject_pos (a : Z) (p : positive) :
  (inject_Z a / inject_Z (Z.pos p))%Q = (a * 1 # 1 * p)%Q.
Proof. reflexivity. Qed.

Lemma gap_quotient_nonneg (a b : Z) :
  0 <= a -> 0 < b -> (0 <= inject_Z a / inject_Z b)%Q.
Proof.
  intros Ha Hb. destruct b as [| p | p]; try lia.
  rewrite Qdiv_inject_pos. unfold Qle. cbn [Qnum Qden]. lia.
Qed.

Lemma gap_quotient_le_1 (a b : Z) :
  0 < b -> (inject_Z a / inject_Z b <= 1)%Q <-> a <= b.
Proof.
  intros Hb. destruct b as [| p | p]; try lia.
  rewrite Qdiv_inject_pos. unfold Qle. cbn [Qnum Qden]. lia.
Qed.

Lemma gap_quotient_ge_1 (a b : Z) :
  0 < b -> b <= a -> (1 <= inject_Z a / inject_Z b)%Q.
Proof.
  intros Hb Hab. destruct b as [| p | p]; try lia.
  rewrite Qdiv_inject_pos. unfold Qle. cbn [Qnum Qden]. lia.
Qed.

Lemma gap_quotient_mono (a a' b : Z) :
  0 < b -> a <= a' ->
  (inject_Z a / inject_Z b <= inject_Z a' / inject_Z b)%Q.
Proof.
  intros Hb Ha. destruct b as [| p | p]; try lia.
  rewrite !Qdiv_inject_pos. unfold Qle. cbn [Qnum Qden]. nia.
Qed.

(** A user who meets every minimum but not every recommended value, and who
    exceeds the recommended GPU score. *)
Example gap_above_one_evaluates :
  Result.settings <$>
    check_game_compatibility (scored_hw 22000 30000 16) game_reqs
  = Ok "Medium".
Proof. vm_compute. reflexivity. Qed.

(** C7, as stated, fails: in the low/medium branch, with every minimum
    strictly below its recommended value, the GPU gap of a user above the
    recommended GPU score is (30000 - 9000) / (18000 - 9000) = 7/3 > 1. *)
Lemma gap_exceeds_one :
  (MeetsMinimum (scored_hw 22000 30000 16) game_reqs
   /\ ~ MeetsRecommended (scored_hw 22000 30000 16) game_reqs
   /\ min_lt_rec game_reqs)
  /\ source_gap (scored_hw 22000 30000 16) game_reqs GPU
     = Ok (inject_Z 21000 / inject_Z 9000)%Q
  /\ (1 < inject_Z 21000 / inject_Z 9000)%Q.
Proof.
  repeat split.
  - intros []; vm_compute; discriminate.
  - intros H. specialize (H CPU). vm_compute in H. apply H. reflexivity.
  - intros []; reflexivity.
Qed.

(** C7, amended. In the low/medium branch, with every minimum strictly below
    its recommended value, every per-dimension gap that is computed is at
    least 0; it is at most 1 on every dimension where the user does not exceed
    the recommended value, and at least 1 where the user is at or above it.
    The bounds are stated of the quotient as rounded by [rnd], any monotone
    rounding that leaves 0 and 1 fixed (binary64 round-to-nearest is one, the
    identity another). *)
Theorem computed_gaps_bounded
    (hw : Hardware.t) (req : Requirements.t) (rnd : Q -> Q)
    (d : dimension) (g : Q) :
  MeetsMinimum hw req ->
  ~ MeetsRecommended hw req ->
  min_lt_rec req ->
  monotone_rounding rnd ->
  source_gap hw req d = Ok g ->
  (0 <= rnd g)%Q
  /\ (yours hw d <= need (Requirements.recommended req) d -> (rnd g <= 1)%Q)
  /\ (need (Requirements.recommended req) d <= yours hw d -> (1 <= rnd g)%Q).
Proof.
  intros Hmin _ Hlt (Hmono & H0 & H1) Hg.
  specialize (Hmin d). specialize (Hlt d). unfold meets in Hmin.
  assert (Eg : g = gap hw req d).
  { destruct d; cbn [source_gap] in Hg; cbv zeta in Hg;
      unfold cpu_gap, gpu_gap, ram_gap in Hg;
      apply truediv_inv_Ok in Hg; destruct Hg as [_ ->]; reflexivity. }
  subst g. unfold gap. repeat split.
  - rewrite <- H0. apply Hmono. apply gap_quotient_nonneg; lia.
  - intros Hle. rewrite <- H1. apply Hmono. apply gap_quotient_le_1; lia.
  - intros Hge. rewrite <- H1. apply Hmono. apply gap_quotient_ge_1; lia.
Qed.

Lemma computed_gaps_bounded_witness :
  (0 <= inject_Z 6000 / inject_Z 9000)%Q
  /\ (yours (scored_hw 22000 30000 16) CPU
      <= need (Requirements.recommended game_reqs) CPU ->
      (inject_Z 6000 / inject_Z 9000 <= 1)%Q)
  /\ (need (Requirements.recommended game_reqs) CPU
      <= yours (scored_hw 22000 30000 16) CPU ->
      (1 <= inject_Z 6000 / inject_Z 9000)%Q).
Proof.
  apply (computed_gaps_bounded (scored_hw 22000 30000 16) game_reqs
           (fun q => q) CPU (inject_Z 6000 / inject_Z 9000)%Q).
  - intros []; vm_compute; discriminate.
  - intros H. specialize (H CPU). vm_compute in H. apply H. reflexivity.
  - intros []; reflexivity.
  - split; [intros x y H; exact H | split; reflexivity].
  - reflexivity.
Defined.

(** ** Monotonicity of the tier *)

Lemma gap_mono (hw hw' : Hardware.t) (req : Requirements.t) (d : dimension) :
  need (Requirements.minimum req) d < need (Requirements.recommended req) d ->
  yours hw d <= yours hw' d ->
  (gap hw req d <= gap hw' req d)%Q.
Proof.
  intros Hlt Hle. unfold gap. apply gap_quotient_mono; lia.
Qed.

Lemma avg_gap_mono (hw hw' : Hardware.t) (req : Requirements.t) :
  min_lt_rec req ->
  (forall d, yours hw d <= yours hw' d) ->
  (avg_gap hw req <= avg_gap hw' req)%Q.
Proof.
  intros Hlt Hle. unfold avg_gap, Qdiv.
  apply Qmult_le_compat_r; [| discriminate].
  repeat apply Qplus_le_compat; apply gap_mono; auto.
Qed.

Lemma min_lt_rec_intro (req : Requirements.t) :
  min_le_rec req -> ~ zero_gap_divisor req -> min_lt_rec req.
Proof.
  intros Hle Hnz d. specialize (Hle d).
  destruct (decide (need (Requirements.recommended req) d
                    = need (Requirements.minimum req) d)) as [Heq | Hne];
    [| lia].
  exfalso. apply Hnz. exists d. exact Heq.
Qed.

Lemma raises_one_score_le (hw hw' : Hardware.t) :
  raises_one_score hw hw' -> forall d, yours hw d <= yours hw' d.
Proof.
  intros (d0 & Hlt & Hsame) d.
  destruct (decide (d = d0)) as [-> | Hne]; [lia |].
  rewrite (Hsame d Hne). lia.
Qed.

Lemma tier_le_cases (s1 s2 : string) (a b : nat) :
  tier_rank s1 = Some a -> tier_rank s2 = Some b -> (a <= b)%nat ->
  tier_le s1 s2.
Proof. unfold tier_le. intros -> ->. auto. Qed.

(** The tier of a returned result never goes down when no user value goes
    down, provided the minimum does not exceed the recommended value. *)
Lemma tier_monotone (hw hw' : Hardware.t) (req : Requirements.t)
    (r r' : Result.t) :
  min_le_rec req ->
  (forall d, yours hw d <= yours hw' d) ->
  check_game_compatibility hw req = Ok r ->
  check_game_compatibility hw' req = Ok r' ->
  tier_le (Result.settings r) (Result.settings r').
Proof.
  intros Hord Hle E E'.
  pose proof (check_verdict hw req) as V. rewrite E in V.
  pose proof (check_verdict hw' req) as V'. rewrite E' in V'.
  assert (Hup : forall t, (forall d, meets hw t d) -> forall d, meets hw' t d).
  { intros t H d. specialize (H d). specialize (Hle d). unfold meets in *. lia. }
  inversion V; subst; inversion V'; subst;
    repeat match goal with
           | H : Result.settings _ = _ |- _ => rewrite H; clear H
           end;
    try (eapply tier_le_cases; [reflexivity | reflexivity | lia]);
    try (exfalso;
         match goal with
         | H : ~ MeetsMinimum hw' req |- _ => apply H
         | H : ~ MeetsRecommended hw' req |- _ => apply H
         end;
         unfold MeetsMinimum, MeetsRecommended in *;
         apply Hup; assumption).
  (* Medium before, Low after: the mean gap cannot have gone down *)
  exfalso.
  match goal with
  | Hz : ~ zero_gap_divisor req,
    Havg : (1 # 2 <= avg_gap hw req)%Q,
    Havg' : (avg_gap hw' req < 1 # 2)%Q |- _ =>
      pose proof (avg_gap_mono hw hw' req (min_lt_rec_intro req Hord Hz) Hle)
        as Hm;
      apply (Qlt_irrefl (1 # 2));
      eapply Qle_lt_trans; [exact Havg |];
      eapply Qle_lt_trans; [exact Hm | exact Havg']
  end.
Qed.

(** C2, as stated, fails: with a CPU minimum (20) above the recommended value
    (10), raising the CPU score from 20 to 30 lowers the CPU gap from 0 to -1
    and moves the tier from "Medium" down to "Low". *)
Lemma raising_cpu_lowers_tier :
  raises_one_score (scored_hw 20 9 9) (scored_hw 30 9 9)
  /\ Result.settings <$>
       check_game_compatibility (scored_hw 20 9 9) inverted_cpu_reqs
     = Ok "Medium"
  /\ Result.settings <$>
       check_game_compatibility (scored_hw 30 9 9) inverted_cpu_reqs
     = Ok "Low"
  /\ ~ tier_le "Medium" "Low".
Proof.
  split; [| split; [| split]].
  - exists CPU. split; [reflexivity |]. intros [] H; first [reflexivity | exfalso; apply H; reflexivity].
  - vm_compute. reflexivity.
  - vm_compute. reflexivity.
  - vm_compute. lia.
Qed.

(** C2, amended. For every requirements profile whose minimum does not
    exceed its recommended value on any dimension, raising exactly one of the
    three user scores with the other two fixed never moves the tier of the
    returned result downward in the order Cannot Run < Low < Medium < High. *)
Theorem raising_one_score_keeps_tier
    (hw hw' : Hardware.t) (req : Requirements.t) (r r' : Result.t) :
  min_le_rec req ->
  raises_one_score hw hw' ->
  check_game_compatibility hw req = Ok r ->
  check_game_compatibility hw' req = Ok r' ->
  tier_le (Result.settings r) (Result.settings r').
Proof.
  intros Hord Hraise. apply tier_monotone; [exact Hord |].
  apply raises_one_score_le. exact Hraise.
Qed.

Lemma raising_one_score_keeps_tier_witness :
  Result.settings <$>
    check_game_compatibility (scored_hw 22000 10000 8) game_reqs = Ok "Low"
  /\ Result.settings <$>
       check_game_compatibility (scored_hw 22000 10000 16) game_reqs
     = Ok "Medium"
  /\ tier_le "Low" "Medium".
Proof.
  split; [vm_compute; reflexivity | split; [vm_compute; reflexivity |]].
  apply (raising_one_score_keeps_tier
           (scored_hw 22000 10000 8) (scored_hw 22000 10000 16) game_reqs
           {| Result.can_run := true;
              Result.settings := "Low";
              Result.notes :=
                "Your hardware meets minimum requirements. Expect low settings for smooth gameplay.";
              Result.details :=
                Details.mk true false true false true false
                  (UserScores.mk 22000 10000 8) |}
           {| Result.can_run := true;
              Result.settings := "Medium";
              Result.notes :=
                "Your hardware is between minimum and recommended. Expect medium settings.";
              Result.details :=
                Details.mk true false true false true true
                  (UserScores.mk 22000 10000 16) |}).
  - intros []; vm_compute; discriminate.
  - exists RAM. split; [reflexivity |]. intros [] H; first [reflexivity | exfalso; apply H; reflexivity].
  - vm_compute. reflexivity.
  - vm_compute. reflexivity.
Defined.

(** ** The scenarios of the spec *)

Example main_example :
  Result.settings <$> check_game_compatibility user_hw game_reqs = Ok "Medium".
Proof. vm_compute. reflexivity. Qed.

(** Scenario A: gaps 2/3, 1 and 1, mean 8/9, hence "Medium". *)
Example scenario_A :
  check_game_compatibility (scored_hw 22000 18000 16) game_reqs
  = Ok {| Result.can_run := true;
          Result.settings := "Medium";
          Result.notes :=
            "Your hardware is between minimum and recommended. Expect medium settings.";
          Result.details :=
            Details.mk true false true true true true
              (UserScores.mk 22000 18000 16) |}
  /\ (avg_gap (scored_hw 22000 18000 16) game_reqs == 8 # 9)%Q.
Proof. split; vm_compute; reflexivity. Qed.

(** Scenario B: all three minimums fail. *)
Example scenario_B :
  check_game_compatibility (scored_hw 10000 6000 4) game_reqs
  = Ok {| Result.can_run := false;
          Result.settings := "Cannot Run";
          Result.notes :=
            "Hardware below minimum requirements. Bottlenecks: CPU (yours: 10000, need: 16000), GPU (yours: 6000, need: 9000), RAM (yours: 4GB, need: 8GB)";
          Result.details :=
            Details.mk false false false false false false
              (UserScores.mk 10000 6000 4) |}.
Proof. vm_compute. reflexivity. Qed.

(** Scenario C: exactly at every recommended value. *)
Example scenario_C :
  Result.settings <$>
    check_game_compatibility (scored_hw 25000 18000 16) game_reqs
  = Ok "High".
Proof. vm_compute. reflexivity. Qed.

(** Scenario D: the memory need is 8 GB at both tiers, the user has 8 GB and
    is short of the recommended CPU score. *)
Example scenario_D :
  check_game_compatibility (scored_hw 20000 18000 8) flat_ram_reqs
  = Raise ZeroDivisionError.
Proof. vm_compute. reflexivity. Qed.

(** A pre-supplied score of 0 is used as it is. *)
Example supplied_zero_score_used :
  user_cpu_score
    (Hardware.mk (Cpu.mk "AMD Ryzen 5 5600X" (Some 6) (Some (37 # 10)%Q) (Some 0))
       (Gpu.mk "NVIDIA GeForce RTX 3060" (Some 12) None) 16) = 0.
Proof. reflexivity. Qed.

(** * Further properties of the score resolver *)

(** Walks a membership in a literal list, closing each case with [tac]. *)
Ltac each_entry H tac :=
  repeat (apply elem_of_cons in H as [H | H];
          [injection H as -> ->; tac |]);
  apply elem_of_nil in H; contradiction.

Lemma GPU_BENCHMARK_DB_range (name : string) (score : Z) :
  GPU_BENCHMARK_DB !! name = Some score -> 6000 <= score <= 35000.
Proof.
  unfold GPU_BENCHMARK_DB. intros H. apply elem_of_list_to_map_2 in H.
  each_entry H lia.
Qed.

Lemma CPU_BENCHMARK_DB_range (name : string) (score : Z) :
  CPU_BENCHMARK_DB !! name = Some score -> 10000 <= score <= 48000.
Proof.
  unfold CPU_BENCHMARK_DB. intros H. apply elem_of_list_to_map_2 in H.
  each_entry H lia.
Qed.

Lemma vram_band_range (v : Z) : 3000 <= vram_band v <= 20000.
Proof. unfold vram_band. repeat case_decide; lia. Qed.

Lemma vram_band_mono (v v' : Z) : v <= v' -> vram_band v <= vram_band v'.
Proof. unfold vram_band. intros H. repeat case_decide; lia. Qed.

(** The score of a GPU in terms of the table and the band. *)
Lemma get_gpu_score_unlisted (name : string) (vram_gb : option Z) :
  GPU_BENCHMARK_DB !! name = None ->
  get_gpu_score name vram_gb =
  match vram_gb with
  | Some v => if decide (v = 0) then 8000 else vram_band v
  | None => 8000
  end.
Proof.
  intros Hout. unfold get_gpu_score. rewrite Hout.
  destruct vram_gb as [v |]; [| reflexivity].
  case_decide as Hv.
  - subst v. reflexivity.
  - rewrite (proj2 (truthy_int_Some v) Hv). apply vram_band_source.
Qed.

(** X1. Whatever the name and the VRAM (listed or not, absent, zero or
    negative), a GPU score lies between 3000 and 35000. *)
Theorem gpu_score_range (name : string) (vram_gb : option Z) :
  3000 <= get_gpu_score name vram_gb <= 35000.
Proof.
  destruct (GPU_BENCHMARK_DB !! name) as [s |] eqn:E.
  - pose proof (GPU_BENCHMARK_DB_range name s E) as Hs.
    unfold get_gpu_score. rewrite E. lia.
  - rewrite (get_gpu_score_unlisted name vram_gb E).
    destruct vram_gb as [v |]; [| lia].
    pose proof (vram_band_range v). case_decide; lia.
Qed.

(** X2. For one GPU name, more VRAM never gives a lower score, as long as both
    amounts are nonzero. *)
Theorem gpu_score_monotone_in_vram (name : string) (v v' : Z) :
  v <> 0 -> v' <> 0 -> v <= v' ->
  get_gpu_score name (Some v) <= get_gpu_score name (Some v').
Proof.
  intros Hv Hv' Hle.
  destruct (GPU_BENCHMARK_DB !! name) as [s |] eqn:E.
  - unfold get_gpu_score. rewrite E. lia.
  - rewrite !(get_gpu_score_unlisted name _ E).
    repeat case_decide; try contradiction. apply vram_band_mono. exact Hle.
Qed.

Lemma gpu_score_monotone_in_vram_witness :
  get_gpu_score "Unlisted GPU" (Some 6) <= get_gpu_score "Unlisted GPU" (Some 12).
Proof.
  apply (gpu_score_monotone_in_vram "Unlisted GPU" 6 12); lia.
Defined.

(** X3. The exception at zero: an unlisted GPU reported with 0 GB of VRAM gets
    the default 8000, which is more than the same GPU gets with any nonzero
    amount below 6 GB. *)
Theorem gpu_zero_vram_beats_small_vram (name : string) (v : Z) :
  GPU_BENCHMARK_DB !! name = None ->
  v <> 0 -> v < 6 ->
  get_gpu_score name (Some v) < get_gpu_score name (Some 0)
  /\ get_gpu_score name (Some 0) = get_gpu_score name None.
Proof.
  intros Hout Hv Hlt.
  rewrite !(get_gpu_score_unlisted name _ Hout).
  repeat case_decide; try contradiction; try lia.
  split; [| reflexivity].
  unfold vram_band. repeat case_decide; lia.
Qed.

Lemma gpu_zero_vram_beats_small_vram_witness :
  get_gpu_score "Unlisted GPU" (Some 4) < get_gpu_score "Unlisted GPU" (Some 0)
  /\ get_gpu_score "Unlisted GPU" (Some 0) = get_gpu_score "Unlisted GPU" None.
Proof.
  apply (gpu_zero_vram_beats_small_vram "Unlisted GPU" 4).
  - vm_compute. reflexivity.
  - lia.
  - lia.
Defined.

(** The score of a CPU in terms of the table and the estimate. *)
Lemma get_cpu_score_unlisted (name : string) (cores : option Z)
    (clock_speed : option Q) :
  CPU_BENCHMARK_DB !! name = None ->
  get_cpu_score name cores clock_speed =
  match cores, clock_speed with
  | Some c, Some f =>
      if decide (c = 0) then 10000
      else if Qeq_dec f 0 then 10000
      else cpu_estimate c f
  | _, _ => 10000
  end.
Proof.
  intros Hout. unfold get_cpu_score. rewrite Hout.
  destruct cores as [c |], clock_speed as [f |]; try reflexivity.
  case_decide as Hc.
  - subst c. reflexivity.
  - rewrite (proj2 (truthy_int_Some c) Hc).
    destruct (Qeq_dec f 0) as [Hf | Hf].
    + destruct (truthy_float (Some f)) eqn:Ht; [| reflexivity].
      apply truthy_float_Some in Ht. contradiction.
    + rewrite (proj2 (truthy_float_Some f) Hf). reflexivity.
Qed.

(** X4. An unlisted component with an attribute left out gets the default: a CPU
    without cores or without clock speed 10000, a GPU without VRAM 8000. *)
Theorem missing_attribute_gives_default
    (name : string) (cores : option Z) (clock_speed : option Q) :
  (CPU_BENCHMARK_DB !! name = None ->
   cores = None \/ clock_speed = None ->
   get_cpu_score name cores clock_speed = 10000)
  /\ (GPU_BENCHMARK_DB !! name = None -> get_gpu_score name None = 8000).
Proof.
  split.
  - intros Hout Hnone. rewrite (get_cpu_score_unlisted _ _ _ Hout).
    destruct Hnone as [-> | ->]; [| destruct cores]; reflexivity.
  - intros Hout. rewrite (get_gpu_score_unlisted _ _ Hout). reflexivity.
Qed.

Lemma missing_attribute_gives_default_witness :
  get_cpu_score "Unlisted CPU" (Some 8) None = 10000
  /\ get_cpu_score "Unlisted CPU" None (Some (7 # 2)%Q) = 10000
  /\ get_gpu_score "Unlisted GPU" None = 8000.
Proof.
  split; [| split].
  - apply (proj1 (missing_attribute_gives_default "Unlisted CPU" (Some 8) None)).
    + vm_compute. reflexivity.
    + right. reflexivity.
  - apply (proj1 (missing_attribute_gives_default "Unlisted CPU" None
                    (Some (7 # 2)%Q))).
    + vm_compute. reflexivity.
    + left. reflexivity.
  - apply (proj2 (missing_attribute_gives_default "Unlisted GPU" None None)).
    vm_compute. reflexivity.
Defined.

(** * Further properties of the evaluation *)

(** The evaluation reads the hardware only through its three resolved
    values. *)
Lemma check_scores_only (hw hw' : Hardware.t) (req : Requirements.t) :
  (forall d, yours hw d = yours hw' d) ->
  check_game_compatibility hw req = check_game_compatibility hw' req.
Proof.
  intros H. pose proof (H CPU) as Hc. pose proof (H GPU) as Hg.
  pose proof (H RAM) as Hr. cbn [yours] in Hc, Hg, Hr.
  unfold check_game_compatibility. rewrite Hc, Hg, Hr. reflexivity.
Qed.

(** X8. Two profiles with the same resolved CPU score, GPU score and memory get
    the same outcome (result or exception) against every requirements
    profile: names, cores, clock speed and VRAM matter only through the
    scores. *)
Theorem same_scores_same_outcome
    (hw hw' : Hardware.t) (req : Requirements.t) :
  user_cpu_score hw = user_cpu_score hw' ->
  user_gpu_score hw = user_gpu_score hw' ->
  Hardware.ram_gb hw = Hardware.ram_gb hw' ->
  check_game_compatibility hw req = check_game_compatibility hw' req.
Proof.
  intros Hc Hg Hr. apply check_scores_only. intros []; assumption.
Qed.

Lemma same_scores_same_outcome_witness :
  check_game_compatibility user_hw game_reqs
  = check_game_compatibility (scored_hw 22000 13000 16) game_reqs.
Proof.
  apply (same_scores_same_outcome user_hw (scored_hw 22000 13000 16) game_reqs).
  - vm_compute. reflexivity.
  - vm_compute. reflexivity.
  - reflexivity.
Defined.

(** X9. A profile that names a listed CPU and a listed GPU and supplies no score
    is evaluated on the two table values, whatever cores, clock speed and
    VRAM it reports. *)
Theorem listed_hardware_evaluated_on_table
    (cpu_name gpu_name : string) (cores vram_gb : option Z)
    (clock_speed : option Q) (ram_gb cpu_value gpu_value : Z)
    (req : Requirements.t) :
  CPU_BENCHMARK_DB !! cpu_name = Some cpu_value ->
  GPU_BENCHMARK_DB !! gpu_name = Some gpu_value ->
  check_game_compatibility
    (Hardware.mk (Cpu.mk cpu_name cores clock_speed None)
       (Gpu.mk gpu_name vram_gb None) ram_gb) req
  = check_game_compatibility (scored_hw cpu_value gpu_value ram_gb) req.
Proof.
  intros Hc Hg. apply check_scores_only.
  intros []; cbn; unfold user_cpu_score, user_gpu_score; cbn;
    unfold get_cpu_score, get_gpu_score; rewrite ?Hc, ?Hg; reflexivity.
Qed.

Lemma listed_hardware_evaluated_on_table_witness :
  check_game_compatibility
    (Hardware.mk (Cpu.mk "AMD Ryzen 5 3600" (Some 0) (Some (99 # 1)%Q) None)
       (Gpu.mk "NVIDIA GeForce GTX 1650" (Some 64) None) 8) game_reqs
  = check_game_compatibility (scored_hw 16000 6000 8) game_reqs.
Proof.
  apply (listed_hardware_evaluated_on_table
           "AMD Ryzen 5 3600" "NVIDIA GeForce GTX 1650" (Some 0) (Some 64)
           (Some (99 # 1)%Q) 8 16000 6000 game_reqs).
  - vm_compute. reflexivity.
  - vm_compute. reflexivity.
Defined.

(** X10. The user scores of a returned result are enough to reproduce it: given
    back as pre-supplied scores, they yield the same result. *)
Theorem user_scores_reproduce_result
    (hw : Hardware.t) (req : Requirements.t) (r : Result.t) :
  check_game_compatibility hw req = Ok r ->
  check_game_compatibility
    (scored_hw (UserScores.cpu (Details.user_scores (Result.details r)))
       (UserScores.gpu (Details.user_scores (Result.details r)))
       (UserScores.ram (Details.user_scores (Result.details r)))) req
  = Ok r.
Proof.
  intros E. rewrite (check_details hw req r E). cbn.
  rewrite <- E. apply check_scores_only. intros []; reflexivity.
Qed.

Lemma user_scores_reproduce_result_witness :
  check_game_compatibility (scored_hw 22000 13000 16) game_reqs
  = Ok {| Result.can_run := true;
          Result.settings := "Medium";
          Result.notes :=
            "Your hardware is between minimum and recommended. Expect medium settings.";
          Result.details :=
            Details.mk true false true false true true
              (UserScores.mk 22000 13000 16) |}.
Proof.
  apply (user_scores_reproduce_result user_hw game_reqs
           {| Result.can_run := true;
              Result.settings := "Medium";
              Result.notes :=
                "Your hardware is between minimum and recommended. Expect medium settings.";
              Result.details :=
                Details.mk true false true false true true
                  (UserScores.mk 22000 13000 16) |}).
  vm_compute. reflexivity.
Defined.

(** X11. [ZeroDivisionError] comes only from the low/medium branch: when it
    is raised, the user meets every minimum, misses some recommended value,
    and some dimension has equal minimum and recommended values.  A user who
    misses a minimum or meets every recommended value gets a result, "Cannot
    Run" or "High", whatever the thresholds, equal ones included. *)
Theorem zero_division_only_between
    (hw : Hardware.t) (req : Requirements.t) :
  (check_game_compatibility hw req = Raise ZeroDivisionError ->
   MeetsMinimum hw req /\ ~ MeetsRecommended hw req /\ zero_gap_divisor req)
  /\ (~ MeetsMinimum hw req \/ MeetsRecommended hw req ->
      exists r,
        check_game_compatibility hw req = Ok r
        /\ (Result.settings r = "Cannot Run" \/ Result.settings r = "High")).
Proof.
  split.
  - apply check_raises_iff.
  - intros Hout.
    destruct (check_verdict hw req)
      as [r | r | r ? Hrec | r ? Hrec | ? Hrec];
      try (exists r; split; [reflexivity | auto]);
      tauto.
Qed.

Lemma zero_division_only_between_witness :
  exists r,
    check_game_compatibility (scored_hw 25000 18000 8) flat_ram_reqs = Ok r
    /\ (Result.settings r = "Cannot Run" \/ Result.settings r = "High").
Proof.
  apply (proj2 (zero_division_only_between
                  (scored_hw 25000 18000 8) flat_ram_reqs)).
  right. intros []; vm_compute; discriminate.
Defined.

(** X12. With every minimum strictly below its recommended value, no
    evaluation raises [ZeroDivisionError]. *)
Theorem strict_thresholds_no_zero_division
    (hw : Hardware.t) (req : Requirements.t) :
  min_lt_rec req ->
  check_game_compatibility hw req <> Raise ZeroDivisionError.
Proof.
  intros Hlt E. apply check_raises_iff in E.
  destruct E as (_ & _ & d & Hd). specialize (Hlt d). lia.
Qed.

Lemma strict_thresholds_no_zero_division_witness :
  min_lt_rec game_reqs
  /\ check_game_compatibility user_hw game_reqs <> Raise ZeroDivisionError.
Proof.
  split; [intros []; reflexivity |].
  apply (strict_thresholds_no_zero_division user_hw game_reqs).
  intros []; reflexivity.
Defined.

(** X13. The tier of a returned result, in terms of the thresholds: "Cannot
    Run" exactly when some minimum is missed, "High" exactly when every
    minimum and every recommended value is met, and "Medium" or "Low" exactly
    when every minimum is met and some recommended value is missed. *)
Theorem tier_by_thresholds
    (hw : Hardware.t) (req : Requirements.t) (r : Result.t) :
  check_game_compatibility hw req = Ok r ->
  (Result.settings r = "Cannot Run" <-> ~ MeetsMinimum hw req)
  /\ (Result.settings r = "High" <->
      MeetsMinimum hw req /\ MeetsRecommended hw req)
  /\ (Result.settings r = "Medium" \/ Result.settings r = "Low" <->
      MeetsMinimum hw req /\ ~ MeetsRecommended hw req).
Proof.
  intros E. pose proof (check_verdict hw req) as V. rewrite E in V.
  inversion V; subst;
    repeat match goal with
           | H : Result.settings _ = _ |- _ => rewrite H; clear H
           end;
    repeat split; intros;
    repeat match goal with
           | H : _ \/ _ |- _ => destruct H
           end;
    try discriminate; try tauto.
Qed.

Lemma tier_by_thresholds_witness :
  ("Medium" = "Cannot Run" <-> ~ MeetsMinimum user_hw game_reqs)
  /\ ("Medium" = "High" <->
      MeetsMinimum user_hw game_reqs /\ MeetsRecommended user_hw game_reqs)
  /\ ("Medium" = "Medium" \/ "Medium" = "Low" <->
      MeetsMinimum user_hw game_reqs /\ ~ MeetsRecommended user_hw game_reqs).
Proof.
  apply (tier_by_thresholds user_hw game_reqs
           {| Result.can_run := true;
              Result.settings := "Medium";
              Result.notes :=
                "Your hardware is between minimum and recommended. Expect medium settings.";
              Result.details :=
                Details.mk true false true false true true
                  (UserScores.mk 22000 13000 16) |}).
  vm_compute. reflexivity.
Defined.

(** X14. The flags of [details] agree with the verdict: [can_run] is the
    conjunction of the three minimum flags, and the settings are "High"
    exactly when all six flags are true. *)
Theorem details_agree_with_verdict
    (hw : Hardware.t) (req : Requirements.t) (r : Result.t) :
  check_game_compatibility hw req = Ok r ->
  Result.can_run r
  = Details.cpu_meets_min (Result.details r)
    && Details.gpu_meets_min (Result.details r)
    && Details.ram_meets_min (Result.details r)
  /\ (Result.settings r = "High" <->
      Details.cpu_meets_min (Result.details r)
      && Details.gpu_meets_min (Result.details r)
      && Details.ram_meets_min (Result.details r)
      && (Details.cpu_meets_rec (Result.details r)
          && Details.gpu_meets_rec (Result.details r)
          && Details.ram_meets_rec (Result.details r)) = true).
Proof.
  intros E. rewrite (check_details hw req r E). cbn.
  rewrite andb_true_iff, !meets_all_geb.
  fold (MeetsMinimum hw req). fold (MeetsRecommended hw req).
  pose proof (check_verdict hw req) as V. rewrite E in V.
  inversion V as [? Hmin Hc Hs | ? Hmin Hrec Hc Hs | ? Hmin Hrec _ _ Hc Hs
                 | ? Hmin Hrec _ _ Hc Hs | ]; subst;
    rewrite Hc, Hs;
    (split;
     [ symmetry;
       first [ apply meets_all_geb; exact Hmin
             | apply not_meets_all_geb; exact Hmin ]
     | split; intros; try discriminate; tauto ]).
Qed.

Lemma details_agree_with_verdict_witness :
  true = true && true && true
  /\ ("Medium" = "High" <->
      true && true && true && (false && false && true) = true).
Proof.
  apply (details_agree_with_verdict user_hw game_reqs
           {| Result.can_run := true;
              Result.settings := "Medium";
              Result.notes :=
                "Your hardware is between minimum and recommended. Expect medium settings.";
              Result.details :=
                Details.mk true false true false true true
                  (UserScores.mk 22000 13000 16) |}).
  vm_compute. reflexivity.
Defined.

(** X15. The notes of a result that can run are fixed by its tier. *)
Theorem notes_fixed_by_tier
    (hw : Hardware.t) (req : Requirements.t) (r : Result.t) :
  check_game_compatibility hw req = Ok r ->
  (Result.settings r = "High" ->
   Result.notes r =
   "Your hardware meets or exceeds recommended requirements. Enjoy high settings!")
  /\ (Result.settings r = "Medium" ->
      Result.notes r =
      "Your hardware is between minimum and recommended. Expect medium settings.")
  /\ (Result.settings r = "Low" ->
      Result.notes r =
      "Your hardware meets minimum requirements. Expect low settings for smooth gameplay.").
Proof.
  unfold check_game_compatibility. cbv zeta.
  destruct (negb _).
  { intros [= <-]. cbn. repeat split; intros; discriminate. }
  destruct (_ && _ && _).
  { intros [= <-]. cbn. repeat split; intros; try discriminate; reflexivity. }
  destruct (cpu_gap _ _ _) as [gc |]; [| discriminate].
  destruct (gpu_gap _ _ _) as [gg |]; [| discriminate].
  destruct (ram_gap _ _ _) as [gr |]; [| discriminate].
  cbn [mbind py_result_bind bind].
  destruct (Qle_bool _ _); intros [= <-]; cbn;
    repeat split; intros; try discriminate; reflexivity.
Qed.

Lemma notes_fixed_by_tier_witness :
  check_game_compatibility (scored_hw 17000 9000 8) game_reqs
  = Ok {| Result.can_run := true;
          Result.settings := "Low";
          Result.notes :=
            "Your hardware meets minimum requirements. Expect low settings for smooth gameplay.";
          Result.details :=
            Details.mk true false true false true false
              (UserScores.mk 17000 9000 8) |}
  /\ Result.notes
       {| Result.can_run := true;
          Result.settings := "Low";
          Result.notes :=
            "Your hardware meets minimum requirements. Expect low settings for smooth gameplay.";
          Result.details :=
            Details.mk true false true false true false
              (UserScores.mk 17000 9000 8) |}
     = "Your hardware meets minimum requirements. Expect low settings for smooth gameplay.".
Proof.
  split; [vm_compute; reflexivity |].
  refine (proj2 (proj2 (notes_fixed_by_tier (scored_hw 17000 9000 8) game_reqs
                          _ _)) _).
  - vm_compute. reflexivity.
  - reflexivity.
Defined.

(** ** The low/medium decision in integers *)

Lemma avg_gap_half_iff (hw : Hardware.t) (req : Requirements.t) :
  min_lt_rec req ->
  (1 # 2 <= avg_gap hw req)%Q <->
  3 * (span req CPU * span req GPU * span req RAM) <= 2 * weighted_lead hw req.
Proof.
  intros Hlt.
  pose proof (Hlt CPU) as Hc. pose proof (Hlt GPU) as Hg.
  pose proof (Hlt RAM) as Hr.
  unfold weighted_lead, avg_gap, gap, lead, span.
  remember (need (Requirements.recommended req) CPU
            - need (Requirements.minimum req) CPU) as sc.
  remember (need (Requirements.recommended req) GPU
            - need (Requirements.minimum req) GPU) as sg.
  remember (need (Requirements.recommended req) RAM
            - need (Requirements.minimum req) RAM) as sr.
  generalize (yours hw CPU - need (Requirements.minimum req) CPU).
  generalize (yours hw GPU - need (Requirements.minimum req) GPU).
  generalize (yours hw RAM - need (Requirements.minimum req) RAM).
  intros lr lg lc.
  destruct sc as [| pc | pc]; try lia.
  destruct sg as [| pg | pg]; try lia.
  destruct sr as [| pr | pr]; try lia.
  rewrite !Qdiv_inject_pos.
  unfold Qle, Qdiv, Qmult, Qplus, Qinv, inject_Z. cbn [Qnum Qden].
  rewrite !Pos2Z.inj_mul. lia.
Qed.

Lemma between_result (hw : Hardware.t) (req : Requirements.t) :
  MeetsMinimum hw req -> ~ MeetsRecommended hw req -> min_lt_rec req ->
  exists r,
    check_game_compatibility hw req = Ok r
    /\ Result.can_run r = true
    /\ Result.settings r
       = if decide (3 * (span req CPU * span req GPU * span req RAM)
                    <= 2 * weighted_lead hw req)
         then "Medium" else "Low".
Proof.
  intros Hmin Hrec Hlt.
  pose proof (avg_gap_half_iff hw req Hlt) as Hiff.
  destruct (check_verdict hw req)
    as [r Hn | r ? Hn | r _ _ _ Havg Hc Hs | r _ _ _ Havg Hc Hs | _ _ Hz];
    try contradiction.
  - exists r. rewrite decide_True by (apply Hiff; exact Havg). auto.
  - exists r. rewrite decide_False; [auto |].
    intros H. apply Hiff in H. revert Havg. apply Qle_not_lt. exact H.
  - destruct Hz as [d Hd]. specialize (Hlt d). lia.
Qed.

(** X17. A user exactly at every minimum, each strictly below its recommended
    value, can run the game on "Low". *)
Theorem at_minimum_is_low (hw : Hardware.t) (req : Requirements.t) :
  min_lt_rec req ->
  (forall d, yours hw d = need (Requirements.minimum req) d) ->
  exists r,
    check_game_compatibility hw req = Ok r
    /\ Result.can_run r = true
    /\ Result.settings r = "Low".
Proof.
  intros Hlt Heq.
  destruct (between_result hw req) as (r & E & Hc & Hs); try assumption.
  - intros d. unfold meets. rewrite Heq. lia.
  - intros H. specialize (H CPU). specialize (Hlt CPU). unfold meets in H.
    rewrite Heq in H. lia.
  - exists r. split; [exact E | split; [exact Hc |]].
    rewrite Hs. apply decide_False.
    assert (Hw : weighted_lead hw req = 0).
    { unfold weighted_lead, lead. rewrite !Heq, !Z.sub_diag. lia. }
    assert (Hp : 0 < span req CPU * span req GPU * span req RAM).
    { pose proof (Hlt CPU). pose proof (Hlt GPU). pose proof (Hlt RAM).
      repeat apply Z.mul_pos_pos; unfold span; lia. }
    rewrite Hw. lia.
Qed.

Lemma at_minimum_is_low_witness :
  exists r,
    check_game_compatibility (scored_hw 16000 9000 8) game_reqs = Ok r
    /\ Result.can_run r = true
    /\ Result.settings r = "Low".
Proof.
  apply (at_minimum_is_low (scored_hw 16000 9000 8) game_reqs).
  - intros []; reflexivity.
  - intros []; reflexivity.
Defined.

(** X18. A user exactly halfway between minimum and recommended on every
    dimension gets "Medium": the comparison with one half is not strict. *)
Theorem at_midpoint_is_medium (hw : Hardware.t) (req : Requirements.t) :
  min_lt_rec req ->
  (forall d, 2 * yours hw d
             = need (Requirements.minimum req) d
               + need (Requirements.recommended req) d) ->
  exists r,
    check_game_compatibility hw req = Ok r
    /\ Result.can_run r = true
    /\ Result.settings r = "Medium".
Proof.
  intros Hlt Hmid.
  destruct (between_result hw req) as (r & E & Hc & Hs); try assumption.
  - intros d. specialize (Hlt d). specialize (Hmid d). unfold meets. lia.
  - intros H. specialize (H CPU). specialize (Hlt CPU). specialize (Hmid CPU).
    unfold meets in H. lia.
  - exists r. split; [exact E | split; [exact Hc |]].
    rewrite Hs. apply decide_True.
    assert (Hl : forall d, span req d = 2 * lead hw req d).
    { intros d. specialize (Hmid d). unfold span, lead. lia. }
    unfold weighted_lead. rewrite !Hl. lia.
Qed.

Lemma at_midpoint_is_medium_witness :
  exists r,
    check_game_compatibility (scored_hw 20500 13500 12) game_reqs = Ok r
    /\ Result.can_run r = true
    /\ Result.settings r = "Medium".
Proof.
  apply (at_midpoint_is_medium (scored_hw 20500 13500 12) game_reqs).
  - intros []; reflexivity.
  - intros []; reflexivity.
Defined.

(** X19. Raising any number of the three user scores at once, none lowered, never
    moves the tier of the returned results downward, provided no minimum
    exceeds its recommended value. *)
Theorem raising_scores_keeps_tier
    (hw hw' : Hardware.t) (req : Requirements.t) (r r' : Result.t) :
  min_le_rec req ->
  user_cpu_score hw <= user_cpu_score hw' ->
  user_gpu_score hw <= user_gpu_score hw' ->
  Hardware.ram_gb hw <= Hardware.ram_gb hw' ->
  check_game_compatibility hw req = Ok r ->
  check_game_compatibility hw' req = Ok r' ->
  tier_le (Result.settings r) (Result.settings r').
Proof.
  intros Hord Hc Hg Hr. apply tier_monotone; [exact Hord |].
  intros []; assumption.
Qed.

Lemma raising_scores_keeps_tier_witness :
  tier_le "Cannot Run" "High".
Proof.
  apply (raising_scores_keeps_tier
           (scored_hw 10000 6000 4) (scored_hw 25000 18000 16) game_reqs
           {| Result.can_run := false;
              Result.settings := "Cannot Run";
              Result.notes :=
                "Hardware below minimum requirements. Bottlenecks: CPU (yours: 10000, need: 16000), GPU (yours: 6000, need: 9000), RAM (yours: 4GB, need: 8GB)";
              Result.details :=
                Details.mk false false false false false false
                  (UserScores.mk 10000 6000 4) |}
           {| Result.can_run := true;
              Result.settings := "High";
              Result.notes :=
                "Your hardware meets or exceeds recommended requirements. Enjoy high settings!";
              Result.details :=
                Details.mk true true true true true true
                  (UserScores.mk 25000 18000 16) |}).
  - intros []; vm_compute; discriminate.
  - vm_compute. discriminate.
  - vm_compute. discriminate.
  - vm_compute. discriminate.
  - vm_compute. reflexivity.
  - vm_compute. reflexivity.
Defined.
